(** * adiff: static reverse-mode differentiation of a chain of layers

    A shallow embedding of [include/adiff.hpp].

    The header is a C++ template library: every layer class is parameterised
    by its widths and, for a chained layer, by the class of its parent.
    Template instantiations become the inhabitants of [layer_ty]; the fields
    of an object become a record; a member function becomes a function of
    the object, which returns the updated object next to its result when the
    member writes a field.  No constructor initialises a data member, so a
    newly constructed object is an arbitrary inhabitant of its record.

    [NUM] is [double] in the source.  The development is carried out over an
    arbitrary ring [NUM] together with an arbitrary function [tanh] on it:
    the dense linear algebra (Eigen) is an external library, and is rendered
    by the matrices of MathComp in exact arithmetic.  Rounding is outside the
    model. *)

From HB Require Import structures.
From mathcomp Require Import boot algebra.
Set Implicit Arguments.
Unset Strict Implicit.
Unset Printing Implicit Defensive.

Import GRing.Theory.
Local Open Scope ring_scope.

(** ** A rational stand-in for the hyperbolic tangent *)

(** A rational function that agrees with the hyperbolic tangent to the fifth
    order at 0: its Pade approximant of degrees 3 and 2. *)
Definition tanh_pade (t : rat) : rat :=
  t * (15%:R + t ^+ 2) / (15%:R + 6%:R * t ^+ 2).

Section Adiff.

(** [using NUM = double;] *)
Variable NUM : pzRingType.

(** The elementwise [tanh] of Eigen's array interface, on one coefficient. *)
Variable tanh : NUM -> NUM.

(** ** The linear-algebra substrate *)

(** [Eigen::Matrix<NUM, m, n>::Ones()] *)
Definition Ones (m n : nat) : 'M[NUM]_(m, n) := const_mx 1.

(** [v.array().tanh()] *)
Definition array_tanh (n : nat) (v : 'cV[NUM]_n) : 'cV[NUM]_n :=
  map_mx tanh v.

(** [v.array().pow(2)] *)
Definition array_pow2 (n : nat) (v : 'cV[NUM]_n) : 'cV[NUM]_n :=
  map_mx (fun t => t ^+ 2) v.

(** [1 - v.array()]: the scalar minus every coefficient. *)
Definition one_minus (n : nat) (v : 'cV[NUM]_n) : 'cV[NUM]_n :=
  map_mx (fun t => 1 - t) v.

(** [v.matrix().asDiagonal()], as the dense matrix it converts to. *)
Definition asDiagonal (n : nat) (v : 'cV[NUM]_n) : 'M[NUM]_n :=
  \matrix_(i, j) (v i 0 *+ (i == j)).

(** [x.sum()] *)
Definition vsum (n : nat) (x : 'cV[NUM]_n) : NUM := \sum_i x i 0.

(** ** LINEAR *)

(** [LinearBase<n, m>]: [n] is the input width, [m] the output width. *)
Record LinearBase (n m : nat) : Type := mkLinearBase {
  W_ : 'M[NUM]_(m, n);
  b_ : 'cV[NUM]_m
}.

(** [LinearBase::forward]; it writes no field. *)
Definition LinearBase_forward (n m : nat) (self : LinearBase n m)
    (x : 'cV[NUM]_n) : 'cV[NUM]_m :=
  W_ self *m x + b_ self.

(** [LinearBase::setWeights] *)
Definition setWeights (n m : nat) (self : LinearBase n m)
    (W : 'M[NUM]_(m, n)) (b : 'cV[NUM]_m) : LinearBase n m :=
  {| W_ := W; b_ := b |}.

(** ** TANH *)

(** [TanhBase<n>]: [x_] holds the argument of the last [forward]. *)
Record TanhBase (n : nat) : Type := mkTanhBase {
  x_ : 'cV[NUM]_n
}.

(** [TanhBase::forward]: [x_ = x; return x_.array().tanh();] *)
Definition TanhBase_forward (n : nat) (self : TanhBase n)
    (x : 'cV[NUM]_n) : TanhBase n * 'cV[NUM]_n :=
  let self' := {| x_ := x |} in
  (self', array_tanh (x_ self')).

(** [(1 - this->x_.array().tanh().pow(2)).matrix().asDiagonal()] *)
Definition Tanh_local (n : nat) (self : TanhBase n) : 'M[NUM]_n :=
  asDiagonal (one_minus (array_pow2 (array_tanh (x_ self)))).

(** ** Sum *)

(** [SumBase<n>] declares no data member. *)
Record SumBase (n : nat) : Type := mkSumBase { }.

(** [SumBase::forward] *)
Definition SumBase_forward (n : nat) (self : SumBase n)
    (x : 'cV[NUM]_n) : NUM :=
  vsum x.

(** ** Root and non-root specializations *)

(** A non-root specialization [K<..., Layer>] derives from the base class of
    its kind and adds the reference [Layer& parent_].  The parent is a
    separate object; an object of a chained class is rendered together with
    the object its reference leads to, which is the part of the store that
    [backward] reads.  The root specialization [K<..., void>] adds nothing to
    its base class. *)
Record Chained (Base Layer : Type) : Type := mkChained {
  base : Base;
  parent_ : Layer
}.

(** The template instantiations whose [backward] compiles, indexed by the
    number of rows of their [Jacobian].  Eigen's fixed-size product refuses
    at compile time a parent whose Jacobian has a number of rows other than
    the [n] of its child, so the parent of a layer of input width [n] is a
    [layer_ty n]. *)
Inductive layer_ty : nat -> Type :=
| LinearRoot (n m : nat) : layer_ty m
| LinearChained (n m : nat) (Layer : layer_ty n) : layer_ty m
| TanhRoot (n : nat) : layer_ty n
| TanhChained (n : nat) (Layer : layer_ty n) : layer_ty n
| SumRoot (n : nat) : layer_ty 1
| SumChained (n : nat) (Layer : layer_ty n) : layer_ty 1.

(** [static constexpr int root_dim]: [n] in a root specialization,
    [Layer::root_dim] in a non-root one. *)
Fixpoint root_dim (o : nat) (T : layer_ty o) : nat :=
  match T with
  | LinearRoot n _ => n
  | LinearChained _ _ Layer => root_dim Layer
  | TanhRoot n => n
  | TanhChained _ Layer => root_dim Layer
  | SumRoot n => n
  | SumChained _ Layer => root_dim Layer
  end.

(** The first template argument [n]: the width of the argument of
    [forward]. *)
Definition in_dim (o : nat) (T : layer_ty o) : nat :=
  match T with
  | LinearRoot n _ => n
  | LinearChained n _ _ => n
  | TanhRoot n => n
  | TanhChained n _ => n
  | SumRoot n => n
  | SumChained n _ => n
  end.

(** [static constexpr int out_dim]: [m] in [LinearBase], [n] in [TanhBase].
    The Sum classes declare no such constant; their [Jacobian] has one
    row. *)
Definition out_dim (o : nat) (T : layer_ty o) : nat :=
  match T with
  | LinearRoot _ m => m
  | LinearChained _ m _ => m
  | TanhRoot n => n
  | TanhChained n _ => n
  | SumRoot _ => 1
  | SumChained _ _ => 1
  end.

(** The objects of an instantiation. *)
Fixpoint obj (o : nat) (T : layer_ty o) : Type :=
  match T with
  | LinearRoot n m => LinearBase n m
  | LinearChained n m Layer => Chained (LinearBase n m) (obj Layer)
  | TanhRoot n => TanhBase n
  | TanhChained n Layer => Chained (TanhBase n) (obj Layer)
  | SumRoot n => SumBase n
  | SumChained n Layer => Chained (SumBase n) (obj Layer)
  end.

(** *** [backward], class by class

    In a non-root class, [parent_backward] is the member [backward] of the
    class [Layer], with [r = Layer::root_dim]. *)

(** [Linear<n, m, Layer>::backward] *)
Definition Linear_backward (n m r : nat) (Layer : Type)
    (parent_backward : Layer -> 'M[NUM]_(n, r))
    (self : Chained (LinearBase n m) Layer) : 'M[NUM]_(m, r) :=
  W_ (base self) *m parent_backward (parent_ self).

(** [Linear<n, m, void>::backward] *)
Definition Linear_void_backward (n m : nat) (self : LinearBase n m) :
    'M[NUM]_(m, n) :=
  W_ self.

(** [Tanh<n, Layer>::backward] *)
Definition Tanh_backward (n r : nat) (Layer : Type)
    (parent_backward : Layer -> 'M[NUM]_(n, r))
    (self : Chained (TanhBase n) Layer) : 'M[NUM]_(n, r) :=
  let tmp := Tanh_local (base self) in
  tmp *m parent_backward (parent_ self).

(** [Tanh<n, void>::backward] *)
Definition Tanh_void_backward (n : nat) (self : TanhBase n) : 'M[NUM]_n :=
  Tanh_local self.

(** [Sum<n, Layer>::backward] *)
Definition Sum_backward (n r : nat) (Layer : Type)
    (parent_backward : Layer -> 'M[NUM]_(n, r))
    (self : Chained (SumBase n) Layer) : 'M[NUM]_(1, r) :=
  Ones 1 n *m parent_backward (parent_ self).

(** [Sum<n, void>::backward] *)
Definition Sum_void_backward (n : nat) (self : SumBase n) : 'M[NUM]_(1, n) :=
  Ones 1 n.

(** [backward] of an instantiation: the member of its class, with the
    parent's member resolved at instantiation. *)
Fixpoint backward (o : nat) (T : layer_ty o) :
    obj T -> 'M[NUM]_(o, root_dim T) :=
  match T as T0 in layer_ty o0 return obj T0 -> 'M[NUM]_(o0, root_dim T0) with
  | LinearRoot n m => @Linear_void_backward n m
  | LinearChained n m Layer => Linear_backward (backward (T := Layer))
  | TanhRoot n => @Tanh_void_backward n
  | TanhChained n Layer => Tanh_backward (backward (T := Layer))
  | SumRoot n => @Sum_void_backward n
  | SumChained n Layer => Sum_backward (backward (T := Layer))
  end.

(** *** [forward], inherited from the base class *)

(** The result type of [forward]: [VectorM] in [LinearBase], [Vector] in
    [TanhBase], [NUM] in [SumBase]. *)
Definition out_ty (o : nat) (T : layer_ty o) : Type :=
  match T with
  | LinearRoot _ m => 'cV[NUM]_m
  | LinearChained _ m _ => 'cV[NUM]_m
  | TanhRoot n => 'cV[NUM]_n
  | TanhChained n _ => 'cV[NUM]_n
  | SumRoot _ => NUM
  | SumChained _ _ => NUM
  end.

(** [forward] called on an object of an instantiation.  It is the member of
    the base class: it reads and writes the fields of the base class and
    never goes through [parent_].  Only [TanhBase::forward] has an
    assignment. *)
Definition forward (o : nat) (T : layer_ty o) :
    obj T -> 'cV[NUM]_(in_dim T) -> obj T * out_ty T :=
  match T as T0 in layer_ty _
    return obj T0 -> 'cV[NUM]_(in_dim T0) -> obj T0 * out_ty T0 with
  | LinearRoot n m => fun self x => (self, LinearBase_forward self x)
  | LinearChained n m Layer => fun self x =>
      (self, LinearBase_forward (base self) x)
  | TanhRoot n => fun self x => TanhBase_forward self x
  | TanhChained n Layer => fun self x =>
      let: (base', y) := TanhBase_forward (base self) x in
      ({| base := base'; parent_ := parent_ self |}, y)
  | SumRoot n => fun self x => (self, SumBase_forward self x)
  | SumChained n Layer => fun self x =>
      (self, SumBase_forward (base self) x)
  end.

(** [setWeights] called on an object of [Linear<n, m, Layer>]. *)
Definition Linear_setWeights (n m : nat) (Layer : Type)
    (self : Chained (LinearBase n m) Layer)
    (W : 'M[NUM]_(m, n)) (b : 'cV[NUM]_m) : Chained (LinearBase n m) Layer :=
  {| base := setWeights (base self) W b; parent_ := parent_ self |}.

(** *** Sequences of calls on one object *)

Inductive call (o : nat) (T : layer_ty o) : Type :=
| Forward (x : 'cV[NUM]_(in_dim T))
| Backward.

(** The object after one call; [backward] has no assignment. *)
Definition after (o : nat) (T : layer_ty o) (self : obj T) (c : call T) :
    obj T :=
  match c with
  | Forward x => (forward self x).1
  | Backward => self
  end.

Definition run (o : nat) (T : layer_ty o) (self : obj T)
    (cs : seq (call T)) : obj T :=
  foldl (@after o T) self cs.

(** *** A forward pass through a chain, root to tail *)

(** The result of [forward] as the argument of the next layer: a vector as
    it is, the [NUM] of a Sum layer as a vector of width one. *)
Definition as_vector (o : nat) (T : layer_ty o) : out_ty T -> 'cV[NUM]_o :=
  match T as T0 in layer_ty o0 return out_ty T0 -> 'cV[NUM]_o0 with
  | LinearRoot _ _ => id
  | LinearChained _ _ _ => id
  | TanhRoot _ => id
  | TanhChained _ _ => id
  | SumRoot _ => fun a => a%:M
  | SumChained _ _ => fun a => a%:M
  end.

(** [l_k(... l_1(l_0(x)))], as in [NN::forward]: every layer of the chain
    gets the result of its parent. *)
Fixpoint feed (o : nat) (T : layer_ty o) :
    obj T -> 'cV[NUM]_(root_dim T) -> obj T * out_ty T :=
  match T as T0 in layer_ty _
    return obj T0 -> 'cV[NUM]_(root_dim T0) -> obj T0 * out_ty T0 with
  | LinearRoot n m => fun self x => forward (T := LinearRoot n m) self x
  | LinearChained n m Layer => fun self x =>
      let: (parent', y) := feed (parent_ self) x in
      forward (T := LinearChained m Layer)
        {| base := base self; parent_ := parent' |} (as_vector y)
  | TanhRoot n => fun self x => forward (T := TanhRoot n) self x
  | TanhChained n Layer => fun self x =>
      let: (parent', y) := feed (parent_ self) x in
      forward (T := TanhChained Layer)
        {| base := base self; parent_ := parent' |} (as_vector y)
  | SumRoot n => fun self x => forward (T := SumRoot n) self x
  | SumChained n Layer => fun self x =>
      let: (parent', y) := feed (parent_ self) x in
      forward (T := SumChained Layer)
        {| base := base self; parent_ := parent' |} (as_vector y)
  end.

(** ** NN *)

(** The members [l0], [l1], [l2], [l3] of the example network. *)
Definition NN_in_dim : nat := 4.
Definition NN_out_dim : nat := 2.
Definition NN_h_dim : nat := 64.

Definition NN_l0 : layer_ty NN_h_dim := LinearRoot NN_in_dim NN_h_dim.
Definition NN_l1 : layer_ty NN_h_dim := TanhChained NN_l0.
Definition NN_l2 : layer_ty NN_out_dim := LinearChained NN_out_dim NN_l1.
Definition NN_l3 : layer_ty NN_out_dim := TanhChained NN_l2.

(** [NN::forward] *)
Definition NN_forward (self : obj NN_l3) (x : 'cV[NUM]_NN_in_dim) :
    obj NN_l3 * 'cV[NUM]_NN_out_dim :=
  feed (T := NN_l3) self x.

(** [NN::backward] *)
Definition NN_backward (self : obj NN_l3) : 'M[NUM]_(NN_out_dim, NN_in_dim) :=
  backward (T := NN_l3) self.

Arguments backward {o} T self.
Arguments forward {o} T self x.
Arguments feed {o} T self x.
Arguments run {o} T self cs.
Arguments after {o} T self c.
Arguments Forward {o} T x.
Arguments Backward {o} T.

(** ** Calls and their outcome *)

Inductive error : Type := UninitializedState.

Inductive outcome (A : Type) : Type :=
| Returned (a : A)
| Raised (e : error).

(** A call of [backward] as the caller sees it.  No [backward] of the header
    has a [throw] or an assertion, and no class has a member that records a
    call of [forward]: the call returns. *)
Definition call_backward (o : nat) (T : layer_ty o) (self : obj T) :
    outcome 'M[NUM]_(o, root_dim T) :=
  Returned (backward T self).

Arguments call_backward {o} T self.

(** ** Matrices written out by their coefficients *)

Definition mx_of_rows (m n : nat) (rows : seq (seq NUM)) : 'M[NUM]_(m, n) :=
  \matrix_(i, j) nth 0 (nth [::] rows i) j.

Definition col_of_seq (n : nat) (s : seq NUM) : 'cV[NUM]_n :=
  \col_i nth 0 s i.

(** ** The parameters of the Linear layers of a chain *)

(** Two states of a chain hold the same [W_] and [b_] in every Linear
    layer. *)
Fixpoint same_weights (o : nat) (T : layer_ty o) : obj T -> obj T -> Prop :=
  match T as T0 in layer_ty _ return obj T0 -> obj T0 -> Prop with
  | LinearRoot n m => fun s s' => W_ s = W_ s' /\ b_ s = b_ s'
  | LinearChained n m Layer => fun s s' =>
      [/\ W_ (base s) = W_ (base s'), b_ (base s) = b_ (base s')
        & same_weights (parent_ s) (parent_ s')]
  | TanhRoot n => fun _ _ => True
  | TanhChained n Layer => fun s s' => same_weights (parent_ s) (parent_ s')
  | SumRoot n => fun _ _ => True
  | SumChained n Layer => fun s s' => same_weights (parent_ s) (parent_ s')
  end.

Arguments same_weights {o} T _ _.

(** ** The chain rule, as the specification words it *)

(** The local derivative of a layer: the derivative of its output in its own
    input [a].  It is [W] for a Linear layer, [diag (1 - tanh(a)^2)] for a
    Tanh layer and the row of ones for a Sum layer. *)
Definition local_derivative (o : nat) (T : layer_ty o) :
    obj T -> 'cV[NUM]_(in_dim T) -> 'M[NUM]_(o, in_dim T) :=
  match T as T0 in layer_ty o0
    return obj T0 -> 'cV[NUM]_(in_dim T0) -> 'M[NUM]_(o0, in_dim T0) with
  | LinearRoot n m => fun self _ => W_ self
  | LinearChained n m Layer => fun self _ => W_ (base self)
  | TanhRoot n => fun _ a => diag_mx (\row_i (1 - tanh (a i 0) ^+ 2))
  | TanhChained n Layer => fun _ a => diag_mx (\row_i (1 - tanh (a i 0) ^+ 2))
  | SumRoot n => fun _ _ => const_mx 1
  | SumChained n Layer => fun _ _ => const_mx 1
  end.

Arguments local_derivative {o} T self a.

(** Matrices that can be multiplied in a row, from the one of the tail
    ([o] rows) to the one of the root ([r] columns). *)
Inductive mxpath (r : nat) : nat -> Type :=
| PathRoot (o : nat) (L : 'M[NUM]_(o, r)) : mxpath r o
| PathCons (n o : nat) (L : 'M[NUM]_(o, n)) (rest : mxpath r n) : mxpath r o.

(** [L_tail *m (... *m (L_1 *m L_root))] *)
Fixpoint path_prod (r o : nat) (p : mxpath r o) : 'M[NUM]_(o, r) :=
  match p with
  | PathRoot _ L => L
  | PathCons _ _ L rest => L *m path_prod rest
  end.

(** The local derivatives of the layers of a chain in a forward pass on [x]:
    the one of the root is taken at [x], the one of a chained layer at the
    value its parent hands on. *)
Fixpoint chain_rule (o : nat) (T : layer_ty o) :
    obj T -> 'cV[NUM]_(root_dim T) -> mxpath (root_dim T) o :=
  match T as T0 in layer_ty o0
    return obj T0 -> 'cV[NUM]_(root_dim T0) -> mxpath (root_dim T0) o0 with
  | LinearRoot n m => fun self x =>
      PathRoot (local_derivative (LinearRoot n m) self x)
  | LinearChained n m Layer => fun self x =>
      PathCons
        (local_derivative (LinearChained m Layer) self
           (as_vector (feed Layer (parent_ self) x).2))
        (chain_rule (parent_ self) x)
  | TanhRoot n => fun self x =>
      PathRoot (local_derivative (TanhRoot n) self x)
  | TanhChained n Layer => fun self x =>
      PathCons
        (local_derivative (TanhChained Layer) self
           (as_vector (feed Layer (parent_ self) x).2))
        (chain_rule (parent_ self) x)
  | SumRoot n => fun self x =>
      PathRoot (local_derivative (SumRoot n) self x)
  | SumChained n Layer => fun self x =>
      PathCons
        (local_derivative (SumChained Layer) self
           (as_vector (feed Layer (parent_ self) x).2))
        (chain_rule (parent_ self) x)
  end.

Arguments chain_rule {o} T self x.

(** ** The layers of a chain *)

(** The [root_dim] constants of the classes of a chain, tail first. *)
Fixpoint root_dims (o : nat) (T : layer_ty o) : seq nat :=
  root_dim T ::
  match T with
  | LinearRoot _ _ => [::]
  | LinearChained _ _ Layer => root_dims Layer
  | TanhRoot _ => [::]
  | TanhChained _ Layer => root_dims Layer
  | SumRoot _ => [::]
  | SumChained _ Layer => root_dims Layer
  end.

(** The input width of the class at the root of a chain, found by following
    the parent classes. *)
Fixpoint root_in_dim (o : nat) (T : layer_ty o) : nat :=
  match T with
  | LinearRoot _ _ => in_dim T
  | LinearChained _ _ Layer => root_in_dim Layer
  | TanhRoot _ => in_dim T
  | TanhChained _ Layer => root_in_dim Layer
  | SumRoot _ => in_dim T
  | SumChained _ Layer => root_in_dim Layer
  end.

(** ** The call operators *)



(** [SumBase::operator()] *)
Definition SumBase_call (n : nat) (self : SumBase n)
    (x : 'cV[NUM]_n) : NUM :=
  SumBase_forward self x.

(** ** The class [NN], member by member *)





(** ** Chains without a Tanh layer *)

Fixpoint affine (o : nat) (T : layer_ty o) : bool :=
  match T with
  | LinearRoot _ _ => true
  | LinearChained _ _ Layer => affine Layer
  | TanhRoot _ => false
  | TanhChained _ _ => false
  | SumRoot _ => true
  | SumChained _ Layer => affine Layer
  end.


(** ** The diagonal product *)

(** Eigen multiplies a diagonal expression into a dense matrix by scaling
    its rows; it is the product with the dense diagonal matrix. *)
Lemma asDiagonal_mul (n r : nat) (v : 'cV[NUM]_n) (A : 'M[NUM]_(n, r)) :
  asDiagonal v *m A = \matrix_(i, j) (v i 0 * A i j).
Proof.
have -> : asDiagonal v = diag_mx v^T.
  by apply/matrixP=> i j; rewrite !mxE.
by rewrite mul_diag_mx; apply/matrixP=> i j; rewrite !mxE.
Qed.

(** ** Calls on a Linear or a Sum object leave it as it was *)

Lemma run_LinearRoot (n m : nat) (self : obj (LinearRoot n m))
    (cs : seq (call (LinearRoot n m))) :
  run (LinearRoot n m) self cs = self.
Proof. by elim: cs => [|[x|] cs IH]. Qed.

Lemma run_LinearChained (n m : nat) (Layer : layer_ty n)
    (self : obj (LinearChained m Layer))
    (cs : seq (call (LinearChained m Layer))) :
  run (LinearChained m Layer) self cs = self.
Proof. by elim: cs => [|[x|] cs IH]. Qed.

Lemma run_SumRoot (n : nat) (self : obj (SumRoot n))
    (cs : seq (call (SumRoot n))) :
  run (SumRoot n) self cs = self.
Proof. by elim: cs => [|[x|] cs IH]. Qed.

Lemma run_SumChained (n : nat) (Layer : layer_ty n)
    (self : obj (SumChained Layer)) (cs : seq (call (SumChained Layer))) :
  run (SumChained Layer) self cs = self.
Proof. by elim: cs => [|[x|] cs IH]. Qed.

(** C3.  [backward] of a Linear layer whose weights were set to [W] is [W]
    in the root specialization and [W] times the parent's [backward] in the
    non-root one, whatever calls of [forward] (none, or any number with any
    arguments) were made on the layer in between. *)
Theorem Linear_backward_is_W (n m : nat) (W : 'M[NUM]_(m, n))
    (b : 'cV[NUM]_m) :
  (forall (self : obj (LinearRoot n m)) (cs : seq (call (LinearRoot n m))),
     backward (LinearRoot n m) (run (LinearRoot n m) (setWeights self W b) cs)
     = W)
  /\
  (forall (Layer : layer_ty n) (self : obj (LinearChained m Layer))
          (cs : seq (call (LinearChained m Layer))),
     backward (LinearChained m Layer)
       (run (LinearChained m Layer) (Linear_setWeights self W b) cs)
     = W *m backward Layer (parent_ self)).
Proof.
split=> [self cs|Layer self cs].
- by rewrite run_LinearRoot.
- by rewrite run_LinearChained.
Qed.

(** C5.  [backward] of a Sum layer of input width [n] is the row of [n]
    ones in the root specialization and that row times the parent's
    [backward] in the non-root one, after any calls on the layer; two
    different arguments of [forward] give the same [backward]. *)
Theorem Sum_backward_is_ones (n : nat) :
  (forall (self : obj (SumRoot n)) (cs : seq (call (SumRoot n))),
     backward (SumRoot n) (run (SumRoot n) self cs) = const_mx 1)
  /\
  (forall (Layer : layer_ty n) (self : obj (SumChained Layer))
          (cs : seq (call (SumChained Layer))),
     backward (SumChained Layer) (run (SumChained Layer) self cs)
     = const_mx 1 *m backward Layer (parent_ self))
  /\
  (forall (self : obj (SumRoot n)) (x1 x2 : 'cV[NUM]_n),
     backward (SumRoot n) (forward (SumRoot n) self x1).1
     = backward (SumRoot n) (forward (SumRoot n) self x2).1)
  /\
  (forall (Layer : layer_ty n) (self : obj (SumChained Layer))
          (x1 x2 : 'cV[NUM]_n),
     backward (SumChained Layer) (forward (SumChained Layer) self x1).1
     = backward (SumChained Layer) (forward (SumChained Layer) self x2).1).
Proof.
split; last split; last by split.
- by move=> self cs; rewrite run_SumRoot.
- by move=> Layer self cs; rewrite run_SumChained.
Qed.

(** ** The cached input of a Tanh layer *)

Lemma run_rcons (o : nat) (T : layer_ty o) (self : obj T)
    (cs : seq (call T)) (c : call T) :
  run T self (rcons cs c) = after T (run T self cs) c.
Proof. by rewrite /run -cats1 foldl_cat. Qed.

Lemma run_TanhChained_parent (n : nat) (Layer : layer_ty n)
    (self : obj (TanhChained Layer)) (cs : seq (call (TanhChained Layer))) :
  parent_ (run (TanhChained Layer) self cs) = parent_ self.
Proof.
elim/last_ind: cs => [//|cs c IH].
by rewrite run_rcons; case: c.
Qed.

(** The diagonal matrix built in [Tanh::backward], coefficient by
    coefficient. *)
Lemma Tanh_localE (n : nat) (self : TanhBase n) :
  Tanh_local self = diag_mx (\row_i (1 - tanh (x_ self i 0) ^+ 2)).
Proof. by apply/matrixP=> i j; rewrite !mxE. Qed.

(** C2.  [forward(x)] on a Tanh layer stores [x] in [x_], whatever [x_]
    held after the earlier calls [cs]; the [backward] that follows returns
    [diag (1 - tanh(x)^2)] in the root specialization and that matrix times
    the parent's [backward] in the non-root one. *)
Theorem Tanh_backward_uses_last_forward (n : nat) (x : 'cV[NUM]_n) :
  let D := diag_mx (\row_i (1 - tanh (x i 0) ^+ 2)) in
  (forall (self : obj (TanhRoot n)) (cs : seq (call (TanhRoot n))),
     let s := run (TanhRoot n) self (rcons cs (Forward (TanhRoot n) x)) in
     x_ s = x /\ backward (TanhRoot n) s = D)
  /\
  (forall (Layer : layer_ty n) (self : obj (TanhChained Layer))
          (cs : seq (call (TanhChained Layer))),
     let s := run (TanhChained Layer) self
                (rcons cs (Forward (TanhChained Layer) x)) in
     [/\ x_ (base s) = x, parent_ s = parent_ self
       & backward (TanhChained Layer) s = D *m backward Layer (parent_ self)]).
Proof.
split=> [self cs|Layer self cs] /=; rewrite run_rcons /=.
- by split=> //; rewrite /Tanh_void_backward Tanh_localE.
- rewrite /Tanh_backward Tanh_localE /= run_TanhChained_parent.
  by split.
Qed.

(** ** Parameters are written by [setWeights] only *)

Lemma same_weights_refl (o : nat) (T : layer_ty o) (s : obj T) :
  same_weights T s s.
Proof. by elim: T s => [n m|n m L IH|n|n L IH|n|n L IH] s //=; split. Qed.

Lemma feed_same_weights (o : nat) (T : layer_ty o) (self : obj T)
    (x : 'cV[NUM]_(root_dim T)) :
  same_weights T self (feed T self x).1.
Proof.
elim: T self x => [n m|n m L IH|n|n L IH|n|n L IH] self x //=.
- by case: (feed L (parent_ self) x) (IH (parent_ self) x) => p' y /=; split.
- by case: (feed L (parent_ self) x) (IH (parent_ self) x) => p' y.
- by case: (feed L (parent_ self) x) (IH (parent_ self) x) => p' y.
Qed.

(** C8.  [setWeights(W, b)] gives the object whose [W_] is [W] and whose
    [b_] is [b], with the same parent; these stay [W] and [b] through any
    sequence of [forward] and [backward] calls on the layer, and a forward
    pass through a chain changes the parameters of none of its Linear
    layers. *)
Theorem setWeights_frame (n m : nat) (W : 'M[NUM]_(m, n)) (b : 'cV[NUM]_m) :
  (forall self : obj (LinearRoot n m),
     setWeights self W b = {| W_ := W; b_ := b |})
  /\
  (forall (Layer : layer_ty n) (self : obj (LinearChained m Layer)),
     Linear_setWeights self W b
     = {| base := {| W_ := W; b_ := b |}; parent_ := parent_ self |})
  /\
  (forall (self : obj (LinearRoot n m)) (cs : seq (call (LinearRoot n m))),
     let s := run (LinearRoot n m) (setWeights self W b) cs in
     W_ s = W /\ b_ s = b)
  /\
  (forall (Layer : layer_ty n) (self : obj (LinearChained m Layer))
          (cs : seq (call (LinearChained m Layer))),
     let s := run (LinearChained m Layer) (Linear_setWeights self W b) cs in
     [/\ W_ (base s) = W, b_ (base s) = b & parent_ s = parent_ self])
  /\
  (forall (o : nat) (T : layer_ty o) (self : obj T)
          (x : 'cV[NUM]_(root_dim T)),
     same_weights T self (feed T self x).1).
Proof.
split; [by [] | split; [by [] | split; [| split]]].
- by move=> self cs; rewrite run_LinearRoot.
- by move=> Layer self cs; rewrite run_LinearChained.
- exact: feed_same_weights.
Qed.

(** C10.  A Sum object has no field: there is one object of [SumBase<n>],
    [forward] returns it as it was, and [backward] of the root
    specialization is the row of ones on every object, the newly
    constructed one included.  [backward] of a root Tanh layer is a function
    of the field [x_]. *)
Theorem Sum_has_no_state (n : nat) :
  (forall s s' : SumBase n, s = s')
  /\
  (forall (self : obj (SumRoot n)) (x : 'cV[NUM]_n),
     forward (SumRoot n) self x = (self, \sum_i x i 0))
  /\
  (forall self : obj (SumRoot n), backward (SumRoot n) self = const_mx 1)
  /\
  (forall self : obj (TanhRoot n),
     backward (TanhRoot n) self
     = diag_mx (\row_i (1 - tanh (x_ self i 0) ^+ 2))).
Proof.
split; [by case; case | split; [by [] | split; [by [] |]]].
by move=> self; rewrite /= /Tanh_void_backward Tanh_localE.
Qed.

(** ** Reverse-mode composition *)

Lemma Tanh_local_forward (n : nat) (self : TanhBase n) (x : 'cV[NUM]_n) :
  Tanh_local (TanhBase_forward self x).1
  = diag_mx (\row_i (1 - tanh (x i 0) ^+ 2)).
Proof. by rewrite Tanh_localE. Qed.

(** C1.  After a forward pass through a chain on [x], [backward] on the tail
    is the product [L_tail *m (... *m L_root)] of the local derivatives of
    the layers in that pass.  In every state, [backward] of a non-root layer
    is a matrix of its own (the weights, the diagonal matrix of the cached
    input, the row of ones) times the [backward] of its parent, and
    [backward] of a root layer is that matrix alone. *)
Theorem backward_is_chain_product :
  (forall (o : nat) (T : layer_ty o) (self : obj T)
          (x : 'cV[NUM]_(root_dim T)),
     backward T (feed T self x).1 = path_prod (chain_rule T self x))
  /\
  (forall (n m : nat) (Layer : layer_ty n)
          (self : obj (LinearChained m Layer)),
     backward (LinearChained m Layer) self
     = W_ (base self) *m backward Layer (parent_ self))
  /\
  (forall (n : nat) (Layer : layer_ty n) (self : obj (TanhChained Layer)),
     backward (TanhChained Layer) self
     = diag_mx (\row_i (1 - tanh (x_ (base self) i 0) ^+ 2))
       *m backward Layer (parent_ self))
  /\
  (forall (n : nat) (Layer : layer_ty n) (self : obj (SumChained Layer)),
     backward (SumChained Layer) self
     = const_mx 1 *m backward Layer (parent_ self))
  /\
  (forall (n m : nat) (self : obj (LinearRoot n m)),
     backward (LinearRoot n m) self = W_ self)
  /\
  (forall (n : nat) (self : obj (TanhRoot n)),
     backward (TanhRoot n) self
     = diag_mx (\row_i (1 - tanh (x_ self i 0) ^+ 2)))
  /\
  (forall (n : nat) (self : obj (SumRoot n)),
     backward (SumRoot n) self = const_mx 1).
Proof.
split.
  move=> o; elim=> [n m|n m L IH|n|n L IH|n|n L IH] self x //=.
  - by case: (feed L (parent_ self) x) (IH (parent_ self) x) => p' y /= <-.
  - exact: Tanh_local_forward.
  - case: (feed L (parent_ self) x) (IH (parent_ self) x) => p' y /= <-.
    by rewrite /Tanh_backward Tanh_localE.
  - by case: (feed L (parent_ self) x) (IH (parent_ self) x) => p' y /= <-.
split; [by [] | split; [| split; [by [] | split; [by [] | split; [| by []]]]]].
- by move=> n L self; rewrite /= /Tanh_backward Tanh_localE.
- by move=> n self; rewrite /= /Tanh_void_backward Tanh_localE.
Qed.

(** C6.  The [root_dim] of a root class is its input width [n] and the one
    of a non-root class is its parent's; all classes of a chain have the
    same [root_dim], which is the input width of the class at the root.  It
    is a constant of the class, the same for all its objects, and
    [backward] returns a matrix of [out_dim] rows and [root_dim] columns. *)
Theorem root_dim_along_chain :
  (forall n m : nat, root_dim (LinearRoot n m) = n)
  /\ (forall n : nat, root_dim (TanhRoot n) = n)
  /\ (forall n : nat, root_dim (SumRoot n) = n)
  /\ (forall (n m : nat) (Layer : layer_ty n),
        root_dim (LinearChained m Layer) = root_dim Layer)
  /\ (forall (n : nat) (Layer : layer_ty n),
        root_dim (TanhChained Layer) = root_dim Layer)
  /\ (forall (n : nat) (Layer : layer_ty n),
        root_dim (SumChained Layer) = root_dim Layer)
  /\ (forall (o : nat) (T : layer_ty o),
        root_dim T = root_in_dim T
        /\ all (fun r => r == root_dim T) (root_dims T))
  /\ (forall (o : nat) (T : layer_ty o) (self : obj T),
        out_dim T = o
        /\ exists J : 'M[NUM]_(o, root_dim T), backward T self = J).
Proof.
do 6![split; first by []].
split=> [o T|o T self].
- by elim: T => [n m|n m L [E IH]|n|n L [E IH]|n|n L [E IH]] /=;
    rewrite eqxx ?IH.
- by split; [case: T self | exists (backward T self)].
Qed.

(** The example network: after [NN::forward] on [x], [NN::backward] is the
    product of the four local derivatives, [l3] first; in exact arithmetic
    the bracketing is immaterial. *)
Lemma NN_backward_after_forward (self : obj NN_l3)
    (x : 'cV[NUM]_NN_in_dim) :
  let l2 := parent_ self in
  let l1 := parent_ l2 in
  let l0 := parent_ l1 in
  let a1 := LinearBase_forward l0 x in
  let a3 := LinearBase_forward (base l2) (array_tanh a1) in
  let D1 := diag_mx (\row_i (1 - tanh (a1 i 0) ^+ 2)) in
  let D3 := diag_mx (\row_i (1 - tanh (a3 i 0) ^+ 2)) in
  NN_backward (NN_forward self x).1 = D3 *m (W_ (base l2) *m (D1 *m W_ l0))
  /\ NN_backward (NN_forward self x).1 = D3 *m W_ (base l2) *m D1 *m W_ l0.
Proof.
move=> l2 l1 l0 a1 a3 D1 D3.
have E : NN_backward (NN_forward self x).1
         = D3 *m (W_ (base l2) *m (D1 *m W_ l0)).
  rewrite /NN_backward /NN_forward /= /Tanh_backward /= /Linear_backward /=.
  by rewrite /Tanh_backward /= !Tanh_localE.
by split; rewrite E // !mulmxA.
Qed.

(** ** The affine map *)

(** C4.  [forward(x)] of a Linear layer whose parameters were set to [W] and
    [b] returns [W *m x + b]; with [W = [[2, 3]]], [b = [1]] and
    [x = [1, 1]] it returns [[6]]. *)
Theorem Linear_forward_affine :
  (forall (n m : nat) (W : 'M[NUM]_(m, n)) (b : 'cV[NUM]_m)
          (x : 'cV[NUM]_n) (self : obj (LinearRoot n m)),
     (forward (LinearRoot n m) (setWeights self W b) x).2 = W *m x + b)
  /\
  (forall (n m : nat) (W : 'M[NUM]_(m, n)) (b : 'cV[NUM]_m)
          (x : 'cV[NUM]_n) (Layer : layer_ty n)
          (self : obj (LinearChained m Layer)),
     (forward (LinearChained m Layer) (Linear_setWeights self W b) x).2
     = W *m x + b)
  /\
  (forall self : obj (LinearRoot 2 1),
     (forward (LinearRoot 2 1)
        (setWeights self (mx_of_rows 1 2 [:: [:: 2%:R; 3%:R]])
                         (col_of_seq 1 [:: 1]))
        (col_of_seq 2 [:: 1; 1])).2
     = col_of_seq 1 [:: 6%:R]).
Proof.
split; [by [] | split; [by [] |]] => self.
apply/matrixP=> i j; rewrite /= /LinearBase_forward /= !mxE.
rewrite !big_ord_recl big_ord0 !mxE !ord1 /= !mulr1 addr0.
by rewrite -[1]/(1%:R) -!natrD.
Qed.

(** ** The derivative at zero *)

(** C9.  Provided [tanh 0 = 0], after a [forward] on the zero vector the
    diagonal matrix built by [backward] of a Tanh layer is the identity
    matrix: [backward] of the root specialization returns it, and [backward]
    of the non-root one returns the identity times the parent's
    [backward]. *)
Theorem Tanh_at_zero_is_identity (n : nat) :
  tanh 0 = 0 ->
  (forall (self : obj (TanhRoot n)) (cs : seq (call (TanhRoot n))),
     let s := run (TanhRoot n) self (rcons cs (Forward (TanhRoot n) 0)) in
     Tanh_local s = 1%:M /\ backward (TanhRoot n) s = 1%:M)
  /\
  (forall (Layer : layer_ty n) (self : obj (TanhChained Layer))
          (cs : seq (call (TanhChained Layer))),
     let s := run (TanhChained Layer) self
                (rcons cs (Forward (TanhChained Layer) 0)) in
     Tanh_local (base s) = 1%:M
     /\ backward (TanhChained Layer) s = 1%:M *m backward Layer (parent_ self)).
Proof.
move=> tanh0.
have D0 : diag_mx (\row_(i < n) (1 - tanh ((0 : 'cV[NUM]_n) i 0) ^+ 2))
          = 1%:M.
  by apply/matrixP=> i j; rewrite !mxE tanh0 expr0n subr0.
split=> [self cs|Layer self cs] /=; rewrite run_rcons /=.
- by rewrite /Tanh_void_backward Tanh_localE /= D0.
- by rewrite /Tanh_backward /= run_TanhChained_parent Tanh_localE /= D0.
Qed.

(** ** [backward] before any [forward] *)

(** C7, as the code has it.  A call of [backward] returns on every object,
    the newly constructed ones included: the constructors write no field, so
    a new object is any inhabitant of [obj T].  On a Linear or a Sum layer
    the matrix returned is the same before and after any calls of [forward]
    on the layer. *)
Theorem backward_always_returns :
  (forall (o : nat) (T : layer_ty o) (self : obj T),
     call_backward T self = Returned (backward T self))
  /\
  (forall (n m : nat) (self : obj (LinearRoot n m))
          (cs : seq (call (LinearRoot n m))),
     call_backward (LinearRoot n m) (run (LinearRoot n m) self cs)
     = call_backward (LinearRoot n m) self)
  /\
  (forall (n m : nat) (Layer : layer_ty n)
          (self : obj (LinearChained m Layer))
          (cs : seq (call (LinearChained m Layer))),
     call_backward (LinearChained m Layer)
       (run (LinearChained m Layer) self cs)
     = call_backward (LinearChained m Layer) self)
  /\
  (forall (n : nat) (self : obj (SumRoot n)) (cs : seq (call (SumRoot n))),
     call_backward (SumRoot n) (run (SumRoot n) self cs)
     = Returned (const_mx 1))
  /\
  (forall (n : nat) (Layer : layer_ty n) (self : obj (SumChained Layer))
          (cs : seq (call (SumChained Layer))),
     call_backward (SumChained Layer) (run (SumChained Layer) self cs)
     = call_backward (SumChained Layer) self).
Proof.
split; [by [] | split; [| split; [| split]]].
- by move=> n m self cs; rewrite run_LinearRoot.
- by move=> n m Layer self cs; rewrite run_LinearChained.
- by move=> n self cs; rewrite run_SumRoot.
- by move=> n Layer self cs; rewrite run_SumChained.
Qed.

(** ** A forward pass erases the earlier ones *)

Lemma SumBase_eq (n : nat) (s s' : SumBase n) : s = s'.
Proof. by case: s; case: s'. Qed.

Lemma LinearBase_eq (n m : nat) (s s' : LinearBase n m) :
  W_ s = W_ s' -> b_ s = b_ s' -> s = s'.
Proof. by case: s s' => W b [W' b'] /= -> ->. Qed.

Lemma feed_forgets (o : nat) (T : layer_ty o) (s s' : obj T)
    (x : 'cV[NUM]_(root_dim T)) :
  same_weights T s s' -> feed T s x = feed T s' x.
Proof.
elim: T s s' x => [n m|n m L IH|n|n L IH|n|n L IH] s s' x /=.
- by case=> EW Eb; rewrite (LinearBase_eq EW Eb).
- case=> EW Eb /IH ->; case: (feed L (parent_ s') x) => p' y /=.
  by rewrite (LinearBase_eq EW Eb).
- by [].
- by move/IH->.
- by rewrite (SumBase_eq s s').
- by move/IH->; rewrite (SumBase_eq (base s) (base s')).
Qed.

(** X1.  The state and the result of a forward pass depend on the
    parameters of the Linear layers and on the input only: from two states
    of a chain with the same [W_] and [b_] everywhere, whatever their cached
    inputs, the pass on [x] gives the same state and the same result. *)
Theorem feed_depends_on_weights_only (o : nat) (T : layer_ty o)
    (s s' : obj T) (x : 'cV[NUM]_(root_dim T)) :
  same_weights T s s' -> feed T s x = feed T s' x.
Proof. exact: feed_forgets. Qed.

(** X2.  A forward pass on [x2] after a forward pass on [x1] gives the state
    and the result of the pass on [x2] alone, so [backward] after it is the
    one of [x2]; a pass repeated on the same input changes nothing. *)
Theorem feed_last_wins (o : nat) (T : layer_ty o) (s : obj T)
    (x1 x2 : 'cV[NUM]_(root_dim T)) :
  [/\ feed T (feed T s x1).1 x2 = feed T s x2,
      backward T (feed T (feed T s x1).1 x2).1 = backward T (feed T s x2).1
    & feed T (feed T s x1).1 x1 = feed T s x1].
Proof.
have E x : feed T (feed T s x1).1 x = feed T s x.
  by apply/esym/feed_forgets/feed_same_weights.
by split; rewrite E.
Qed.

(** ** Chains of Linear and Sum layers *)






(** X4.  On a chain of Linear and Sum layers [backward] depends on the
    parameters only: two states with the same [W_] and [b_] everywhere give
    the same matrix, and so do the states before and after a forward
    pass. *)
Theorem affine_backward_needs_no_forward (o : nat) (T : layer_ty o) :
  affine T ->
  (forall s s' : obj T, same_weights T s s' -> backward T s = backward T s')
  /\
  (forall (s : obj T) (x : 'cV[NUM]_(root_dim T)),
     backward T (feed T s x).1 = backward T s).
Proof.
move=> aff.
have H : forall s s' : obj T,
    same_weights T s s' -> backward T s = backward T s'.
  elim: T aff => [n m|n m L IH|n|n L IH|n|n L IH] //= aff s s'.
  - by case.
  - by case=> EW _ /(IH aff) E; rewrite /Linear_backward EW E.
  - by move/(IH aff)=> E; rewrite /Sum_backward E.
split=> // s x.
by apply/esym/H/feed_same_weights.
Qed.


(** X6.  [backward] of a chained Tanh layer is the parent's [backward] with
    row [i] scaled by [1 - tanh(x_i)^2], where [x] is the cached input; the
    one of a root Tanh layer has that factor on the diagonal and 0
    elsewhere. *)
Theorem Tanh_backward_scales_rows (n : nat) :
  (forall (L : layer_ty n) (s : obj (TanhChained L))
          (i : 'I_n) (j : 'I_(root_dim L)),
     backward (TanhChained L) s i j
     = (1 - tanh (x_ (base s) i 0) ^+ 2) * backward L (parent_ s) i j)
  /\
  (forall (s : obj (TanhRoot n)) (i j : 'I_n),
     backward (TanhRoot n) s i j
     = if i == j then 1 - tanh (x_ s i 0) ^+ 2 else 0).
Proof.
split=> [L s i j|s i j] /=.
- by rewrite /Tanh_backward /Tanh_local asDiagonal_mul !mxE.
- by rewrite /Tanh_void_backward /Tanh_local !mxE; case: (i == j).
Qed.

(** X7.  [backward] of a chained Sum layer is the row of the column sums of
    the parent's [backward]. *)
Theorem Sum_backward_sums_columns (n : nat) (L : layer_ty n)
    (s : obj (SumChained L)) (i : 'I_1) (j : 'I_(root_dim L)) :
  backward (SumChained L) s i j = \sum_k backward L (parent_ s) k j.
Proof.
rewrite /= /Sum_backward !mxE.
by apply: eq_bigr => k _; rewrite !mxE mul1r.
Qed.

(** X8.  A [forward] on the tail of a chain alone does not reach the
    ancestors.  After a pass through the chain on [x1], a [forward(x2)] on a
    chained Tanh layer alone leaves [backward] with the new factor of the
    tail on the parent's [backward] of the pass on [x1]; on a chained Linear
    or Sum layer alone it leaves [backward] as the pass on [x1] left it. *)
Theorem forward_on_tail_alone (n : nat) (L : layer_ty n)
    (x1 : 'cV[NUM]_(root_dim L)) (x2 : 'cV[NUM]_n) :
  (forall s : obj (TanhChained L),
     let s1 := (feed (TanhChained L) s x1).1 in
     let s2 := (forward (TanhChained L) s1 x2).1 in
     parent_ s2 = (feed L (parent_ s) x1).1
     /\ backward (TanhChained L) s2
        = diag_mx (\row_i (1 - tanh (x2 i 0) ^+ 2))
          *m backward L (feed L (parent_ s) x1).1)
  /\
  (forall (m : nat) (s : obj (LinearChained m L)),
     let s1 := (feed (LinearChained m L) s x1).1 in
     let s2 := (forward (LinearChained m L) s1 x2).1 in
     backward (LinearChained m L) s2 = backward (LinearChained m L) s1)
  /\
  (forall s : obj (SumChained L),
     let s1 := (feed (SumChained L) s x1).1 in
     let s2 := (forward (SumChained L) s1 x2).1 in
     backward (SumChained L) s2 = backward (SumChained L) s1).
Proof.
split; [| by split] => s /=.
case: (feed L (parent_ s) x1) => p' y /=; split=> //.
by rewrite /Tanh_backward Tanh_localE.
Qed.


End Adiff.

Arguments backward {NUM} tanh {o} T self.
Arguments call_backward {NUM} tanh {o} T self.
Arguments forward {NUM} tanh {o} T self x.
Arguments feed {NUM} tanh {o} T self x.
Arguments run {NUM} tanh {o} T self cs.
Arguments Forward {NUM o} T x.
Arguments Backward {NUM o} T.
Arguments same_weights {NUM o} T _ _.
Arguments local_derivative {NUM} tanh {o} T self a.
Arguments chain_rule {NUM} tanh {o} T self x.

(** ** An instance with rational coefficients *)

Module Rational.

Lemma tanh_pade0 : tanh_pade 0 = 0.
Proof. by rewrite /tanh_pade !mul0r. Qed.

(** C9 at width 2, with [tanh_pade] for [tanh]. *)
Lemma Tanh_at_zero_is_identity_witness :
  tanh_pade 0 = 0
  /\
  ((forall (self : obj rat (TanhRoot 2)) (cs : seq (call rat (TanhRoot 2))),
      let s := run tanh_pade (TanhRoot 2) self
                 (rcons cs (Forward (TanhRoot 2) 0)) in
      Tanh_local tanh_pade s = 1%:M
      /\ backward tanh_pade (TanhRoot 2) s = 1%:M)
   /\
   (forall (Layer : layer_ty 2) (self : obj rat (TanhChained Layer))
           (cs : seq (call rat (TanhChained Layer))),
      let s := run tanh_pade (TanhChained Layer) self
                 (rcons cs (Forward (TanhChained Layer) 0)) in
      Tanh_local tanh_pade (base s) = 1%:M
      /\ backward tanh_pade (TanhChained Layer) s
         = 1%:M *m backward tanh_pade Layer (parent_ self))).
Proof.
split; first exact: tanh_pade0.
exact: (@Tanh_at_zero_is_identity rat tanh_pade 2 tanh_pade0).
Defined.

(** C7 as the specification states it fails: [backward] on a new
    [Sum<1>] object, on which [forward] was never called, returns the row
    of ones and raises nothing; [backward] on a new [Tanh<1>] object whose
    memory holds 0 returns the matrix computed from that memory. *)
Lemma backward_before_forward_returns :
  [/\ call_backward tanh_pade (SumRoot 1) (mkSumBase 1)
      = Returned (const_mx 1),
      call_backward tanh_pade (SumRoot 1) (mkSumBase 1)
      <> Raised _ UninitializedState
    & call_backward tanh_pade (TanhRoot 1) {| x_ := 0 |} = Returned 1%:M].
Proof.
split=> //.
rewrite /call_backward /= /Tanh_void_backward Tanh_localE /=; congr Returned.
by apply/matrixP=> i j; rewrite !mxE tanh_pade0 expr0n subr0.
Qed.

(** An identity Linear layer under a Tanh layer, forwarded on the zero
    vector: the result is zero and [backward] on the tail is the identity
    matrix. *)
Example identity_then_tanh_at_zero
    (self : obj rat (TanhChained (LinearRoot 2 2))) :
  let T := TanhChained (LinearRoot 2 2) in
  let self' :=
    {| base := base self; parent_ := setWeights (parent_ self) 1%:M 0 |} in
  (feed tanh_pade T self' 0).2 = 0
  /\ backward tanh_pade T (feed tanh_pade T self' 0).1 = 1%:M.
Proof.
rewrite /= /TanhBase_forward /LinearBase_forward /= mulmx0 addr0.
have T0 : map_mx tanh_pade (0 : 'cV[rat]_2) = 0.
  by apply/matrixP=> i j; rewrite !mxE tanh_pade0.
split; first by rewrite /array_tanh /= T0.
rewrite /Tanh_backward /Linear_void_backward /= mulmx1 Tanh_localE /=.
by apply/matrixP=> i j; rewrite !mxE tanh_pade0 expr0n subr0.
Qed.

(** The root Linear layer with [W = [[2, 3]]]: [backward] is [[2, 3]]. *)
Example Linear_root_backward_2_3 (self : obj rat (LinearRoot 2 1)) :
  backward tanh_pade (LinearRoot 2 1)
    (setWeights self (mx_of_rows 1 2 [:: [:: 2%:R; 3%:R]])
                     (col_of_seq 1 [:: 1]))
  = mx_of_rows 1 2 [:: [:: 2%:R; 3%:R]].
Proof. by []. Qed.

(** *** Instances of the conditional properties *)

(** X1 on a Tanh layer over a Linear layer of width 1: two states with the
    same parameters and different cached inputs. *)
Lemma feed_depends_on_weights_only_witness :
  let T := TanhChained (LinearRoot 1 1) in
  let l0 : LinearBase rat 1 1 := {| W_ := const_mx 1; b_ := 0 |} in
  let s : obj rat T := {| base := {| x_ := 0 |}; parent_ := l0 |} in
  let s' : obj rat T := {| base := {| x_ := const_mx 1 |}; parent_ := l0 |} in
  same_weights T s s'
  /\ feed tanh_pade T s (const_mx 1) = feed tanh_pade T s' (const_mx 1).
Proof.
move=> T l0 s s'.
have H : same_weights T s s' by split.
split; first exact: H.
exact: (@feed_depends_on_weights_only rat tanh_pade _ T s s' (const_mx 1) H).
Defined.


(** X4 on the same chain. *)
Lemma affine_backward_needs_no_forward_witness :
  let T := SumChained (LinearRoot 2 2) in
  affine T
  /\ ((forall s s' : obj rat T,
         same_weights T s s'
         -> backward tanh_pade T s = backward tanh_pade T s')
      /\
      (forall (s : obj rat T) (x : 'cV[rat]_(root_dim T)),
         backward tanh_pade T (feed tanh_pade T s x).1
         = backward tanh_pade T s)).
Proof.
move=> T.
split; first by [].
exact: (@affine_backward_needs_no_forward rat tanh_pade _ T isT).
Defined.

End Rational.
